(** * client/lib/fifo (unix build): named pipes behind an io.ReadWriteCloser

    A shallow embedding of [client/lib/fifo/fifo_unix.go] and the properties
    of its four public functions [New], [Open], [Remove], [IsClosedErr] and
    of the core routine [openFifo].

    The definitions come in three layers:
    - Go error values and the library functions the package calls
      ([os.IsNotExist], [os.IsExist], [errors.Wrapf]);
    - the package itself, written in a small monad that threads the state
      of the operating system and records every call made to it;
    - a small POSIX directory with FIFOs and concurrent peers, on which the
      package is run on concrete inputs.
    The theorems follow the definitions. *)

From Stdlib Require Import ZArith String List Lia.
From stdpp Require Import base decidable option numbers strings list gmap.

Local Open Scope string_scope.
Local Open Scope Z_scope.

(** ** Go error values *)

(** A pointer obtained from [errors.New]: two such errors are [==] exactly
    when they are the same pointer, whatever their text. *)
Definition ptr := positive.

(** The values of the interface type [error] that the operating system and
    the libraries return to this package.  Errors of pointer type
    ([*os.PathError], ...) are modelled by the struct they point to, so
    they are never nil pointers; [ErrNil] is the nil interface value.  The
    values a caller may build beside these are in [error_value] below. *)
Inductive error : Type :=
| ErrNil
| errorString (p : ptr)                          (* *errors.errorString *)
| Errno (e : Z)                                  (* syscall.Errno *)
| PathError (Op Path : string) (Err : error)     (* *os.PathError *)
| LinkError (Op Old New : string) (Err : error)  (* *os.LinkError *)
| SyscallError (Syscall : string) (Err : error)  (* *os.SyscallError *)
| withMessage (cause : error) (msg : string)     (* pkg/errors *)
| withStack (err : error).                       (* pkg/errors *)

#[global] Instance error_eq_dec : EqDecision error.
Proof. solve_decision. Defined.

(** [a == b] on interface values. *)
Definition error_eqb (a b : error) : bool := bool_decide (a = b).

(** [err != nil] *)
Definition not_nil (err : error) : bool := negb (error_eqb err ErrNil).

(** The pointer types among the dynamic types of [error]. *)
Inductive pointer_type : Type :=
| errorStringPtr    (* *errors.errorString *)
| PathErrorPtr      (* *os.PathError *)
| LinkErrorPtr      (* *os.LinkError *)
| SyscallErrorPtr   (* *os.SyscallError *)
| withMessagePtr    (* pkg/errors *)
| withStackPtr.     (* pkg/errors *)

#[global] Instance pointer_type_eq_dec : EqDecision pointer_type.
Proof. solve_decision. Defined.

(** Every value of the interface type [error] that a caller of this package
    may pass to it: one of the values above, or an interface value that is
    not nil and holds a nil pointer of one of the pointer types. *)
Inductive error_value : Type :=
| Held (err : error)
| NilPointer (t : pointer_type).

#[global] Instance error_value_eq_dec : EqDecision error_value.
Proof. solve_decision. Defined.

(** What a call of a function without effects does: it returns a value, or
    the run time panics (here on the dereference of a nil pointer). *)
Inductive result (A : Type) : Type :=
| Returns (a : A)
| Panics.
Arguments Returns {A} _.
Arguments Panics {A}.

(** ** Library functions the package calls *)

Module oserror.
(** The sentinel errors of internal/oserror, each one [errors.New] value. *)
Definition ErrPermission : error := errorString 1%positive.  (* "permission denied" *)
Definition ErrExist : error := errorString 2%positive.       (* "file already exists" *)
Definition ErrNotExist : error := errorString 3%positive.    (* "file does not exist" *)
Definition ErrClosed : error := errorString 4%positive.      (* "file already closed" *)
End oserror.

Module syscall.
(** Open flags and error numbers of package syscall on linux. *)
Definition O_RDONLY : Z := 0.
Definition O_WRONLY : Z := 1.
Definition O_RDWR : Z := 2.
Definition O_ACCMODE : Z := 3.
Definition O_CREAT : Z := 64.       (* 0x40 *)
Definition O_NONBLOCK : Z := 2048.  (* 0x800 *)

Definition EPERM : Z := 1.
Definition ENOENT : Z := 2.
Definition ENXIO : Z := 6.
Definition EACCES : Z := 13.
Definition EEXIST : Z := 17.
Definition EISDIR : Z := 21.
Definition EINVAL : Z := 22.
Definition ENOTEMPTY : Z := 39.

(** [func (e Errno) Is(target error) bool] *)
Definition Errno_Is (e : Z) (target : error) : bool :=
  if error_eqb target oserror.ErrPermission then
    (e =? EACCES) || (e =? EPERM)
  else if error_eqb target oserror.ErrExist then
    (e =? EEXIST) || (e =? ENOTEMPTY)
  else if error_eqb target oserror.ErrNotExist then
    e =? ENOENT
  else false.
End syscall.

Module os.
Definition ErrExist : error := oserror.ErrExist.
Definition ErrNotExist : error := oserror.ErrNotExist.
Definition ErrClosed : error := oserror.ErrClosed.

(** [os.ModePerm], the nine Unix permission bits 0777. *)
Definition ModePerm : Z := 511.

(** [underlyingError]: one layer of [PathError], [LinkError] or
    [SyscallError] is removed, nothing else. *)
Definition underlyingError (err : error) : error :=
  match err with
  | PathError _ _ Err => Err
  | LinkError _ _ _ Err => Err
  | SyscallError _ Err => Err
  | _ => err
  end.

(** [underlyingErrorIs]: the underlying error is the target itself, or a
    [syscall.Errno] that answers for the target. *)
Definition underlyingErrorIs (err target : error) : bool :=
  let err := underlyingError err in
  if error_eqb err target then true
  else match err with
       | Errno e => syscall.Errno_Is e target
       | _ => false
       end.

Definition IsNotExist (err : error) : bool := underlyingErrorIs err ErrNotExist.
Definition IsExist (err : error) : bool := underlyingErrorIs err ErrExist.
End os.

Module errors.
(** [errors.Wrapf(err, format, args...)] of github.com/pkg/errors: nil for a
    nil error, else the error under a message and a stack trace (the recorded
    program counters are not modelled).  [msg] is the formatted message. *)
Definition Wrapf (err : error) (msg : string) : error :=
  match err with
  | ErrNil => ErrNil
  | _ => withStack (withMessage err msg)
  end.
End errors.

(** [uint32(x)] *)
Definition uint32 (x : Z) : Z := x mod 2 ^ 32.

(** ** context.Context *)

(** A context is the background one, which is never cancelled, or one made
    by [context.WithCancel], whose [cancel] has been called or not. *)
Inductive Context : Type :=
| Background
| cancelCtx (cancelled : bool).

Module context.
Definition Canceled : error := errorString 5%positive. (* "context canceled" *)

(** [ctx.Err()] *)
Definition Err (ctx : Context) : error :=
  match ctx with
  | cancelCtx true => Canceled
  | _ => ErrNil
  end.
End context.

(** ** The operating system *)

(** The calls the package makes to the operating system, with their
    arguments. *)
Inductive oscall : Type :=
| CallStat (name : string)
| CallMkfifo (path : string) (mode : Z)
| CallOpenFile (name : string) (flag : Z) (perm : Z)
| CallRemove (name : string).

#[global] Instance oscall_eq_dec : EqDecision oscall.
Proof. solve_decision. Defined.

(** An open [*os.File]. *)
Record File : Type := mkFile { fd : Z; fname : string }.

#[global] Instance File_eq_dec : EqDecision File.
Proof. solve_decision. Defined.

(** An [io.ReadWriteCloser] as this package returns it: an open file or
    nil.  [None] stands for the nil interface value and for the nil file
    that [os.OpenFile] returns beside an error. *)
Definition ReadWriteCloser : Type := option File.

(** What an operating system does on each call, as a function of its state
    [W]: the state after the call and what the call returns, or [None] when
    the call never returns (an [open] of a FIFO may wait for the other end
    for ever).  [os.Stat] also returns a [FileInfo], which the package
    drops. *)
Class OS (W : Type) : Type := {
  sys_Stat : string → W → option (W * error);
  sys_Mkfifo : string → Z → W → option (W * error);
  sys_OpenFile : string → Z → Z → W → option (W * (ReadWriteCloser * error));
  sys_Remove : string → W → option (W * error)
}.

(** ** The monad of the package *)

(** A run of a computation from a state: the calls it made, in order, and
    the value it returned with the state it left, or [None] if it is still
    waiting in its last call. *)
Record run (W A : Type) : Type := Run {
  calls : list oscall;
  returned : option (A * W)
}.
Arguments Run {W A} _ _.
Arguments calls {W A} _.
Arguments returned {W A} _.

Definition M (W A : Type) : Type := W → run W A.

#[global] Instance M_ret {W} : MRet (M W) :=
  λ A a w, Run [] (Some (a, w)).

#[global] Instance M_bind {W} : MBind (M W) :=
  λ A B f m w,
    let r := m w in
    match returned r with
    | None => Run (calls r) None
    | Some (a, w') =>
        let r' := f a w' in
        Run (calls r ++ calls r') (returned r')
    end.

(** One call to the operating system. *)
Definition call {W R} (c : oscall) (h : W → option (W * R)) : M W R :=
  λ w,
    match h w with
    | None => Run [c] None
    | Some (w', r) => Run [c] (Some (r, w'))
    end.

(** The value a run returned, without the state. *)
Definition value {W A} (r : run W A) : option A := fst <$> returned r.

(** The run [r] when the calls [cs] were made before it. *)
Definition after {W A} (cs : list oscall) (r : run W A) : run W A :=
  Run (cs ++ calls r) (returned r).

(** ** The package *)

Section fifo.
Context {W : Type} `{!OS W}.

Definition os_Stat (name : string) : M W error :=
  call (CallStat name) (sys_Stat name).

Definition unix_Mkfifo (path : string) (mode : Z) : M W error :=
  call (CallMkfifo path mode) (sys_Mkfifo path mode).

Definition os_OpenFile (name : string) (flag perm : Z) : M W (ReadWriteCloser * error) :=
  call (CallOpenFile name flag perm) (sys_OpenFile name flag perm).

Definition os_Remove (name : string) : M W error :=
  call (CallRemove name) (sys_Remove name).

Definition mkfifo (path : string) (mode : Z) : M W error :=
  unix_Mkfifo path mode.

(** The first statement of [openFifo], the probe and the creation: [Some r]
    when it leaves the function returning [r], [None] when control goes on
    to the statements after it. *)
Definition probe_and_create (fn : string) (flag perm : Z)
  : M W (option (ReadWriteCloser * error)) :=
  err ← os_Stat fn;
  if not_nil err then
    if os.IsNotExist err && negb (Z.land flag syscall.O_CREAT =? 0) then
      err ← mkfifo fn (uint32 (Z.land perm os.ModePerm));
      if not_nil err && negb (os.IsExist err) then
        mret (Some (None, errors.Wrapf err ("error creating fifo " +:+ fn)))
      else mret None
    else mret (Some (None, err))
  else mret None.

(** [openFifo]; the context is an argument that the body never reads. *)
Definition openFifo (ctx : Context) (fn : string) (flag perm : Z)
  : M W (ReadWriteCloser * error) :=
  early ← probe_and_create fn flag perm;
  match early with
  | Some r => mret r
  | None =>
      let flag := Z.land flag (Z.lnot syscall.O_CREAT) in
      os_OpenFile fn flag 0
  end.

Definition New (path : string) : M W (ReadWriteCloser * error) :=
  openFifo Background path
    (Z.lor (Z.lor syscall.O_RDONLY syscall.O_CREAT) syscall.O_NONBLOCK)
    384 (* 0600 *).

Definition Open (path : string) : M W (ReadWriteCloser * error) :=
  openFifo Background path syscall.O_WRONLY 384 (* 0600 *).

Definition Remove (path : string) : M W error :=
  os_Remove path.

End fifo.

(** The type assertion of [err] to a pointer to [os.PathError] succeeds on
    every value of that dynamic type, the nil pointer too; then the answer
    is [err2.Err == os.ErrClosed], which dereferences [err2] and panics when
    it is the nil pointer.  When the assertion fails the answer is false. *)
Definition IsClosedErr (err : error_value) : result bool :=
  match err with
  | Held (PathError _ _ Err) => Returns (error_eqb Err os.ErrClosed)
  | NilPointer PathErrorPtr => Panics
  | _ => Returns false
  end.

(** ** A POSIX directory with FIFOs

    One directory, owned like all its entries by the calling process, which
    is not the superuser and whose file mode creation mask is 0; a path is
    the name of an entry of this directory; other processes act between
    the calls of this one.  This is the operating system on which the
    package is run on concrete inputs. *)

Module posix.

Inductive kind : Type := Fifo | Regular | Directory.

Record inode : Type := mkInode {
  ikind : kind;
  imode : Z;        (* permission bits *)
  readers : nat;    (* descriptors open for reading *)
  writers : nat     (* descriptors open for writing *)
}.

(** What another process does to the directory. *)
Inductive peer : Type :=
| PeerIdle
| PeerMkfifo (path : string) (mode : Z)
| PeerUnlink (path : string)
| PeerOpenRead (path : string)
| PeerOpenWrite (path : string).

Record world : Type := mkWorld {
  dir_mode : Z;                  (* permission bits of the directory *)
  entries : gmap string inode;
  next_fd : Z;
  peers : list peer              (* what the other processes will do, in order *)
}.

Definition S_IRUSR : Z := 256.  (* 0400 *)
Definition S_IWUSR : Z := 128.  (* 0200 *)
Definition S_IXUSR : Z := 64.   (* 0100 *)

Definition allows (mode bit : Z) : bool := negb (Z.land mode bit =? 0).

Definition with_entries (w : world) (es : gmap string inode) : world :=
  mkWorld (dir_mode w) es (next_fd w) (peers w).

Definition act (a : peer) (w : world) : world :=
  match a with
  | PeerIdle => w
  | PeerMkfifo path mode =>
      match entries w !! path with
      | None => with_entries w (<[path := mkInode Fifo (Z.land mode 511) 0 0]> (entries w))
      | Some _ => w
      end
  | PeerUnlink path => with_entries w (delete path (entries w))
  | PeerOpenRead path =>
      with_entries w
        (alter (λ i, mkInode (ikind i) (imode i) (S (readers i)) (writers i)) path (entries w))
  | PeerOpenWrite path =>
      with_entries w
        (alter (λ i, mkInode (ikind i) (imode i) (readers i) (S (writers i))) path (entries w))
  end.

(** Before each call of this process the next peer acts. *)
Definition peer_step (w : world) : world :=
  match peers w with
  | [] => w
  | a :: rest => act a (mkWorld (dir_mode w) (entries w) (next_fd w) rest)
  end.

Definition stat (name : string) (w : world) : option (world * error) :=
  let w := peer_step w in
  if negb (allows (dir_mode w) S_IXUSR) then
    Some (w, PathError "stat" name (Errno syscall.EACCES))
  else match entries w !! name with
       | None => Some (w, PathError "stat" name (Errno syscall.ENOENT))
       | Some _ => Some (w, ErrNil)
       end.

(** mkfifo(2), as [unix.Mkfifo] returns it: a bare [Errno]. *)
Definition mkfifo (path : string) (mode : Z) (w : world) : option (world * error) :=
  let w := peer_step w in
  if negb (allows (dir_mode w) S_IXUSR) then Some (w, Errno syscall.EACCES)
  else match entries w !! path with
       | Some _ => Some (w, Errno syscall.EEXIST)
       | None =>
           if negb (allows (dir_mode w) S_IWUSR) then Some (w, Errno syscall.EACCES)
           else Some (with_entries w (<[path := mkInode Fifo (Z.land mode 511) 0 0]> (entries w)),
                      ErrNil)
       end.

(** The answer of one attempt of open(2). *)
Inductive attempt : Type :=
| Opened (i : inode)     (* a descriptor, and the entry with its new counts *)
| Failed (e : Z)
| WouldBlock.

Definition open_inode (flag : Z) (i : inode) : attempt :=
  let acc := Z.land flag syscall.O_ACCMODE in
  let rd := negb (acc =? syscall.O_WRONLY) in
  let wr := negb (acc =? syscall.O_RDONLY) in
  let nonblock := negb (Z.land flag syscall.O_NONBLOCK =? 0) in
  let opened :=
    Opened (mkInode (ikind i) (imode i)
              (if rd then S (readers i) else readers i)
              (if wr then S (writers i) else writers i)) in
  if (rd && negb (allows (imode i) S_IRUSR)) || (wr && negb (allows (imode i) S_IWUSR))
  then Failed syscall.EACCES
  else match ikind i with
       | Regular => opened
       | Directory => if wr then Failed syscall.EISDIR else opened
       | Fifo =>
           if acc =? syscall.O_ACCMODE then Failed syscall.EINVAL
           else if rd && wr then opened
           else if rd then
             if nonblock || negb (Nat.eqb (writers i) 0) then opened else WouldBlock
           else
             if negb (Nat.eqb (readers i) 0) then opened
             else if nonblock then Failed syscall.ENXIO
             else WouldBlock
       end.

Definition open_once (name : string) (flag perm : Z) (w : world) : attempt * world :=
  if negb (allows (dir_mode w) S_IXUSR) then (Failed syscall.EACCES, w)
  else match entries w !! name with
       | Some i => (open_inode flag i, w)
       | None =>
           if Z.land flag syscall.O_CREAT =? 0 then (Failed syscall.ENOENT, w)
           else if negb (allows (dir_mode w) S_IWUSR) then (Failed syscall.EACCES, w)
           else (Opened (mkInode Regular (Z.land perm 511) 0 0), w)
       end.

(** open(2) as [os.OpenFile] returns it.  An open that has to wait for the
    other end of a FIFO waits while the peers act, and never returns when
    none of them opens that end, or when one of them unlinks the FIFO
    before: nobody can reach it by its name any more. *)
Fixpoint open_wait (name : string) (flag perm : Z) (ps : list peer) (w : world)
  : option (world * (ReadWriteCloser * error)) :=
  match open_once name flag perm w with
  | (Opened i, w) =>
      Some (mkWorld (dir_mode w) (<[name := i]> (entries w)) (next_fd w + 1) ps,
            (Some (mkFile (next_fd w) name), ErrNil))
  | (Failed e, w) =>
      Some (mkWorld (dir_mode w) (entries w) (next_fd w) ps,
            (None, PathError "open" name (Errno e)))
  | (WouldBlock, w) =>
      match ps with
      | [] => None
      | PeerUnlink path :: rest =>
          if decide (path = name) then None
          else open_wait name flag perm rest (act (PeerUnlink path) w)
      | a :: rest => open_wait name flag perm rest (act a w)
      end
  end.

Definition openFile (name : string) (flag perm : Z) (w : world)
  : option (world * (ReadWriteCloser * error)) :=
  let w := peer_step w in
  open_wait name flag perm (peers w) w.

Definition remove (name : string) (w : world) : option (world * error) :=
  let w := peer_step w in
  if negb (allows (dir_mode w) S_IXUSR) then
    Some (w, PathError "remove" name (Errno syscall.EACCES))
  else match entries w !! name with
       | None => Some (w, PathError "remove" name (Errno syscall.ENOENT))
       | Some _ =>
           if negb (allows (dir_mode w) S_IWUSR) then
             Some (w, PathError "remove" name (Errno syscall.EACCES))
           else Some (with_entries w (delete name (entries w)), ErrNil)
       end.

#[global] Instance posix_OS : OS world := {
  sys_Stat := stat;
  sys_Mkfifo := mkfifo;
  sys_OpenFile := openFile;
  sys_Remove := remove
}.

(** A writable directory with no entry, and nobody else around. *)
Definition empty_dir : world := mkWorld 448 ∅ 3 [].

(** The same directory with a FIFO of mode 0600 at [path]. *)
Definition dir_with_fifo (path : string) : world :=
  mkWorld 448 {[ path := mkInode Fifo 384 0 0 ]} 3 [].

(** The same directory with a FIFO of mode 0200 at [path], which its owner
    may not read. *)
Definition dir_with_unreadable_fifo (path : string) : world :=
  mkWorld 448 {[ path := mkInode Fifo 128 0 0 ]} 3 [].

(** The same directory with a FIFO of mode 0400 at [path], which its owner
    may not write. *)
Definition dir_with_unwritable_fifo (path : string) : world :=
  mkWorld 448 {[ path := mkInode Fifo 256 0 0 ]} 3 [].

(** An empty directory of mode 0600: its owner may not search it. *)
Definition unsearchable_dir : world := mkWorld 384 ∅ 3 [].

(** An empty directory of mode 0500: its owner may not write to it. *)
Definition readonly_dir : world := mkWorld 320 ∅ 3 [].

(** An empty directory where a peer makes a FIFO of the given mode at [path]
    between the first and the second call of this process. *)
Definition dir_with_racing_peer (path : string) (mode : Z) : world :=
  mkWorld 448 ∅ 3 [PeerIdle; PeerMkfifo path mode].

End posix.

(** * Theorems *)

(** ** Runs of the monad *)

Section runs.
Context {W : Type} `{!OS W}.

Lemma after_nil {A} (r : run W A) : after [] r = r.
Proof. by destruct r. Qed.

Lemma bind_call {R B} (c : oscall) (h : W → option (W * R)) (k : R → M W B) (w : W) :
  (call c h ≫= k) w =
  match h w with
  | None => Run [c] None
  | Some (w', r) => after [c] (k r w')
  end.
Proof.
  unfold mbind, M_bind, call. destruct (h w) as [[w' r]|]; reflexivity.
Qed.

End runs.

(** ** The shape of every run of openFifo *)

Section openFifo_runs.
Context {W : Type} `{!OS W}.

(** The calls of [openFifo] and its result, by cases on what the operating
    system answers. *)
Lemma openFifo_run (ctx : Context) (fn : string) (flag perm : Z) (w : W) :
  openFifo ctx fn flag perm w =
  let mode := uint32 (Z.land perm os.ModePerm) in
  let flag' := Z.land flag (Z.lnot syscall.O_CREAT) in
  match sys_Stat fn w with
  | None => Run [CallStat fn] None
  | Some (w1, err) =>
      if not_nil err then
        if os.IsNotExist err && negb (Z.land flag syscall.O_CREAT =? 0) then
          match sys_Mkfifo fn mode w1 with
          | None => Run [CallStat fn; CallMkfifo fn mode] None
          | Some (w2, err2) =>
              if not_nil err2 && negb (os.IsExist err2) then
                Run [CallStat fn; CallMkfifo fn mode]
                  (Some ((None, errors.Wrapf err2 ("error creating fifo " +:+ fn)), w2))
              else
                after [CallStat fn; CallMkfifo fn mode] (os_OpenFile fn flag' 0 w2)
          end
        else Run [CallStat fn] (Some ((None, err), w1))
      else after [CallStat fn] (os_OpenFile fn flag' 0 w1)
  end.
Proof.
  unfold openFifo, probe_and_create, mkfifo, os_Stat, unix_Mkfifo.
  unfold mbind at 1, M_bind at 1. rewrite bind_call.
  destruct (sys_Stat fn w) as [[w1 err]|]; [|reflexivity].
  destruct (not_nil err); [|reflexivity].
  destruct (os.IsNotExist err && negb (Z.land flag syscall.O_CREAT =? 0));
    [|reflexivity].
  rewrite bind_call.
  destruct (sys_Mkfifo _ _ w1) as [[w2 err2]|]; [|reflexivity].
  destruct (not_nil err2 && negb (os.IsExist err2)); [reflexivity|].
  unfold after; simpl. reflexivity.
Qed.

End openFifo_runs.

(** ** Facts about the library functions *)

Lemma not_nil_true (err : error) : not_nil err = true ↔ err ≠ ErrNil.
Proof.
  unfold not_nil, error_eqb. rewrite negb_true_iff, bool_decide_eq_false. tauto.
Qed.

Lemma IsNotExist_not_nil (err : error) : os.IsNotExist err = true → not_nil err = true.
Proof. destruct err; simpl; try reflexivity. discriminate. Qed.

Lemma IsExist_not_nil (err : error) : os.IsExist err = true → not_nil err = true.
Proof. destruct err; simpl; try reflexivity. discriminate. Qed.

Lemma Wrapf_not_nil (err : error) (msg : string) :
  not_nil err = true → errors.Wrapf err msg = withStack (withMessage err msg).
Proof. destruct err; simpl; try reflexivity. discriminate. Qed.

(** The conversion to [uint32] of the masked mode changes nothing: the mask
    leaves a number below 512. *)
Lemma uint32_perm (perm : Z) :
  uint32 (Z.land perm os.ModePerm) = Z.land perm os.ModePerm
  ∧ 0 <= Z.land perm os.ModePerm <= 511.
Proof.
  unfold uint32, os.ModePerm.
  assert (Z.land perm 511 = perm mod 512) as ->.
  { change 511 with (Z.ones 9). by rewrite Z.land_ones by lia. }
  pose proof (Z.mod_pos_bound perm 512 ltac:(lia)) as Hb.
  change (2 ^ 32) with 4294967296.
  split; [|lia]. apply Z.mod_small. lia.
Qed.

(** ** IsClosedErr *)

(** C6, amended: on every error value other than a nil pointer to
    [os.PathError] held in an interface that is not nil, IsClosedErr returns,
    and it returns true exactly on a path error whose cause is the
    closed-file sentinel, hence false on every other such value, a not-found
    or a permission error among them, and false on nil.  It is a function of
    its argument alone and touches no state. *)
Theorem IsClosedErr_true_iff (err : error_value) :
  err ≠ NilPointer PathErrorPtr →
  (IsClosedErr err = Returns true ↔ ∃ op path, err = Held (PathError op path os.ErrClosed))
  ∧ ((∀ op path, err ≠ Held (PathError op path os.ErrClosed)) →
     IsClosedErr err = Returns false)
  ∧ IsClosedErr (Held ErrNil) = Returns false
  ∧ IsClosedErr (Held (PathError "stat" "/tmp/f" (Errno syscall.ENOENT))) = Returns false
  ∧ IsClosedErr (Held (PathError "open" "/tmp/f" (Errno syscall.EACCES))) = Returns false.
Proof.
  intros Hptr.
  assert (∀ cause, error_eqb cause os.ErrClosed = true ↔ cause = os.ErrClosed) as Heqb
    by (intros cause; apply bool_decide_eq_true).
  split; [|split; [|by repeat split]].
  - split.
    + destruct err as [[]|[]]; simpl; try discriminate.
      intros [= E%Heqb]. subst. eauto.
    + intros (op & path & ->). reflexivity.
  - intros Hshape. destruct err as [[]|[]]; simpl; try reflexivity.
    + destruct (error_eqb Err os.ErrClosed) eqn:E; [|done].
      apply Heqb in E as ->. by destruct (Hshape Op Path).
    + by destruct Hptr.
Qed.

Lemma IsClosedErr_true_iff_witness :
  (Held (PathError "read" "f" os.ErrClosed) ≠ NilPointer PathErrorPtr
   ∧ (IsClosedErr (Held (PathError "read" "f" os.ErrClosed)) = Returns true
      ↔ ∃ op path, Held (PathError "read" "f" os.ErrClosed)
                   = Held (PathError op path os.ErrClosed)))
  ∧ (NilPointer LinkErrorPtr ≠ NilPointer PathErrorPtr
     ∧ (∀ op path, NilPointer LinkErrorPtr ≠ Held (PathError op path os.ErrClosed))
     ∧ IsClosedErr (NilPointer LinkErrorPtr) = Returns false)
  ∧ (Held os.ErrClosed ≠ NilPointer PathErrorPtr
     ∧ (∀ op path, Held os.ErrClosed ≠ Held (PathError op path os.ErrClosed))
     ∧ IsClosedErr (Held os.ErrClosed) = Returns false).
Proof.
  split; [|split].
  - split; [discriminate|].
    apply (IsClosedErr_true_iff (Held (PathError "read" "f" os.ErrClosed))). discriminate.
  - split; [discriminate|]. split; [discriminate|].
    apply (IsClosedErr_true_iff (NilPointer LinkErrorPtr)); discriminate.
  - split; [discriminate|]. split; [discriminate|].
    apply (IsClosedErr_true_iff (Held os.ErrClosed)); discriminate.
Defined.

(** C6 as the claim has it fails: an interface value that is not nil and
    holds a nil pointer to [os.PathError] is not a path error whose cause is
    the closed-file sentinel, the type assertion succeeds on it, and the
    comparison dereferences the nil pointer: IsClosedErr panics and returns
    nothing, so it does not return false. *)
Lemma IsClosedErr_panics_on_nil_pointer :
  (∀ op path, NilPointer PathErrorPtr ≠ Held (PathError op path os.ErrClosed))
  ∧ NilPointer PathErrorPtr ≠ Held ErrNil
  ∧ IsClosedErr (NilPointer PathErrorPtr) = Panics
  ∧ IsClosedErr (NilPointer PathErrorPtr) ≠ Returns false.
Proof. repeat split; intros; discriminate. Qed.

(** C10: IsClosedErr compares the cause field of the path error with the
    sentinel itself and follows no chain of wrapped errors: it is false on a
    path error whose cause is anything but the sentinel, even a cause that
    wraps the sentinel, and false on every error that is not a path error,
    even one that wraps a closed-file path error, and on a nil pointer of
    any other type. *)
Theorem IsClosedErr_compares_identity :
  (∀ op path cause, cause ≠ os.ErrClosed →
     IsClosedErr (Held (PathError op path cause)) = Returns false)
  ∧ (∀ err, (∀ op path cause, err ≠ PathError op path cause) →
       IsClosedErr (Held err) = Returns false)
  ∧ (∀ t, t ≠ PathErrorPtr → IsClosedErr (NilPointer t) = Returns false).
Proof.
  split; [|split].
  - intros op path cause Hne. simpl. unfold error_eqb.
    by rewrite (bool_decide_eq_false_2 _ Hne).
  - intros err Hshape. destruct err; try reflexivity.
    by destruct (Hshape Op Path err).
  - intros t Hne. by destruct t.
Qed.

Lemma IsClosedErr_compares_identity_witness :
  (withStack (withMessage os.ErrClosed "read") ≠ os.ErrClosed
   ∧ IsClosedErr (Held (PathError "read" "f" (withStack (withMessage os.ErrClosed "read"))))
     = Returns false)
  ∧ ((∀ op path cause,
        withStack (withMessage (PathError "read" "f" os.ErrClosed) "copy") ≠ PathError op path cause)
     ∧ IsClosedErr (Held (withStack (withMessage (PathError "read" "f" os.ErrClosed) "copy")))
       = Returns false)
  ∧ (SyscallErrorPtr ≠ PathErrorPtr
     ∧ IsClosedErr (NilPointer SyscallErrorPtr) = Returns false).
Proof.
  split; [|split].
  - split; [discriminate|].
    apply (proj1 IsClosedErr_compares_identity); discriminate.
  - split; [discriminate|].
    apply (proj1 (proj2 IsClosedErr_compares_identity)); discriminate.
  - split; [discriminate|].
    apply (proj2 (proj2 IsClosedErr_compares_identity)); discriminate.
Defined.

(** ** Remove and the context *)

Section remove_and_context.
Context {W : Type} `{!OS W}.

(** C8: Remove makes one removal call and returns the error of that call as
    it is: nothing is suppressed, nothing is wrapped, nothing is tried
    again.  In the POSIX directory, removing an entry that is absent returns
    the does-not-exist error of the removal. *)
Theorem Remove_returns_removal_error (path : string) (w : W) :
  calls (Remove path w) = [CallRemove path]
  ∧ returned (Remove path w) = (λ '(w', err), (err, w')) <$> sys_Remove path w
  ∧ value (Remove "f" posix.empty_dir)
    = Some (PathError "remove" "f" (Errno syscall.ENOENT))
  ∧ os.IsNotExist (PathError "remove" "f" (Errno syscall.ENOENT)) = true.
Proof.
  split; [|split; [|split; reflexivity]].
  - unfold Remove, os_Remove, call. by destruct (sys_Remove path w) as [[w' err]|].
  - unfold Remove, os_Remove, call. by destruct (sys_Remove path w) as [[w' err]|].
Qed.

(** C9: the context given to openFifo changes nothing: with any two contexts
    it makes the same calls and returns the same result from every state of
    every operating system.  New and Open pass the background context, which
    is never cancelled. *)
Theorem openFifo_ignores_context (ctx1 ctx2 : Context) (fn : string) (flag perm : Z) (w : W) :
  openFifo ctx1 fn flag perm w = openFifo ctx2 fn flag perm w
  ∧ (∀ path, ∃ flag perm, New path w = openFifo Background path flag perm w)
  ∧ (∀ path, ∃ flag perm, Open path w = openFifo Background path flag perm w)
  ∧ context.Err Background = ErrNil.
Proof.
  split; [by rewrite !openFifo_run|].
  repeat split; intros; by eexists _, _.
Qed.

End remove_and_context.

(** ** New and Open, by cases *)

Section New_and_Open_runs.
Context {W : Type} `{!OS W}.

Lemma os_OpenFile_run (name : string) (flag perm : Z) (w : W) :
  os_OpenFile name flag perm w =
  match sys_OpenFile name flag perm w with
  | None => Run [CallOpenFile name flag perm] None
  | Some (w', r) => Run [CallOpenFile name flag perm] (Some (r, w'))
  end.
Proof. reflexivity. Qed.

Lemma os_OpenFile_calls (name : string) (flag perm : Z) (w : W) :
  calls (os_OpenFile name flag perm w) = [CallOpenFile name flag perm].
Proof. rewrite os_OpenFile_run. by destruct (sys_OpenFile _ _ _ w) as [[??]|]. Qed.

(** Open has no creation flag, so it never reaches the creation call. *)
Lemma Open_run (path : string) (w : W) :
  Open path w =
  match sys_Stat path w with
  | None => Run [CallStat path] None
  | Some (w1, err) =>
      if not_nil err then Run [CallStat path] (Some ((None, err), w1))
      else after [CallStat path] (os_OpenFile path syscall.O_WRONLY 0 w1)
  end.
Proof.
  unfold Open. rewrite openFifo_run. cbv zeta.
  change (Z.land syscall.O_WRONLY syscall.O_CREAT =? 0) with true.
  change (Z.land syscall.O_WRONLY (Z.lnot syscall.O_CREAT)) with syscall.O_WRONLY.
  destruct (sys_Stat path w) as [[w1 err]|]; [|reflexivity].
  by rewrite andb_false_r.
Qed.

(** New asks for creation with mode 0600 and opens with the non-blocking
    flag alone. *)
Lemma New_run (path : string) (w : W) :
  New path w =
  match sys_Stat path w with
  | None => Run [CallStat path] None
  | Some (w1, err) =>
      if not_nil err then
        if os.IsNotExist err then
          match sys_Mkfifo path 384 w1 with
          | None => Run [CallStat path; CallMkfifo path 384] None
          | Some (w2, err2) =>
              if not_nil err2 && negb (os.IsExist err2) then
                Run [CallStat path; CallMkfifo path 384]
                  (Some ((None, errors.Wrapf err2 ("error creating fifo " +:+ path)), w2))
              else
                after [CallStat path; CallMkfifo path 384]
                  (os_OpenFile path syscall.O_NONBLOCK 0 w2)
          end
        else Run [CallStat path] (Some ((None, err), w1))
      else after [CallStat path] (os_OpenFile path syscall.O_NONBLOCK 0 w1)
  end.
Proof.
  unfold New. rewrite openFifo_run. cbv zeta.
  destruct (sys_Stat path w) as [[w1 err]|]; [|reflexivity].
  destruct (not_nil err); [|reflexivity].
  by rewrite andb_true_r.
Qed.

(** The calls of openFifo are the probe, then at most one creation, then at
    most one open, with these arguments. *)
Lemma openFifo_calls (ctx : Context) (fn : string) (flag perm : Z) (w : W) :
  ∃ made,
    calls (openFifo ctx fn flag perm w) = CallStat fn :: made
    ∧ made ⊆ [CallMkfifo fn (Z.land perm os.ModePerm);
              CallOpenFile fn (Z.land flag (Z.lnot syscall.O_CREAT)) 0].
Proof.
  assert (∀ l l' : list oscall, (∀ c, In c l → In c l') → l ⊆ l') as sub.
  { intros l l' Hin c. rewrite !list_elem_of_In. apply Hin. }
  rewrite openFifo_run. cbv zeta.
  rewrite (proj1 (uint32_perm perm)).
  destruct (sys_Stat fn w) as [[w1 err]|];
    [|exists []; split; [done|apply sub; simpl; tauto]].
  destruct (not_nil err).
  - destruct (os.IsNotExist err && _);
      [|exists []; split; [done|apply sub; simpl; tauto]].
    destruct (sys_Mkfifo _ _ w1) as [[w2 err2]|];
      [|eexists [_]; split; [done|apply sub; simpl; tauto]].
    destruct (not_nil err2 && _);
      [eexists [_]; split; [done|apply sub; simpl; tauto]|].
    eexists [_; _]. unfold after. rewrite os_OpenFile_calls.
    split; [done|apply sub; simpl; tauto].
  - eexists [_]. unfold after. rewrite os_OpenFile_calls.
    split; [done|apply sub; simpl; tauto].
Qed.

End New_and_Open_runs.

(** ** Clearing the creation flag *)

(** [flag &^ O_CREAT] on a 64-bit int: bit 6 is cleared, the other bits stay,
    and the result is again a 64-bit int. *)
Lemma clear_O_CREAT (flag : Z) :
  let flag' := Z.land flag (Z.lnot syscall.O_CREAT) in
  Z.land flag' syscall.O_CREAT = 0
  ∧ Z.testbit flag' 6 = false
  ∧ (∀ i, 0 <= i → i ≠ 6 → Z.testbit flag' i = Z.testbit flag i)
  ∧ (- 2 ^ 63 <= flag < 2 ^ 63 → - 2 ^ 63 <= flag' < 2 ^ 63).
Proof.
  cbv zeta. unfold syscall.O_CREAT. repeat apply conj.
  - by rewrite <- Z.land_assoc, (Z.land_comm (Z.lnot 64)), Z.land_lnot_diag, Z.land_0_r.
  - rewrite Z.land_spec, Z.lnot_spec by lia. by rewrite andb_false_r.
  - intros i Hi Hne. rewrite Z.land_spec, Z.lnot_spec by lia.
    change 64 with (2 ^ 6). rewrite Z.pow2_bits_false by lia. apply andb_true_r.
  - intros Hrange. rewrite <- Z.ldiff_land.
    destruct (Z.testbit flag 6) eqn:Hbit.
    + rewrite <- Z.sub_nocarry_ldiff.
      * apply Z.testbit_true in Hbit; [|lia].
        change (2 ^ 6) with 64 in Hbit. change (2 ^ 63) with 9223372036854775808 in *.
        revert Hbit. Z.div_mod_to_equations. lia.
      * apply Z.bits_inj'. intros i Hi. rewrite Z.ldiff_spec, Z.bits_0.
        destruct (decide (i = 6)) as [->|Hne]; [by rewrite Hbit|].
        change 64 with (2 ^ 6). by rewrite Z.pow2_bits_false by lia.
    + replace (Z.ldiff flag 64) with flag; [done|].
      apply Z.bits_inj'. intros i Hi. rewrite Z.ldiff_spec.
      destruct (decide (i = 6)) as [->|Hne]; [by rewrite Hbit|].
      change 64 with (2 ^ 6). rewrite Z.pow2_bits_false by lia. by rewrite andb_true_r.
Qed.

(** ** What openFifo returns *)

Section openFifo_claims.
Context {W : Type} `{!OS W}.

(** Every value openFifo returns is the error of the probe as it is, or the
    error of the creation call under the message of this package, or the
    pair the open call returned as it is. *)
Lemma openFifo_returns (ctx : Context) (fn : string) (flag perm : Z) (w : W)
    (rwc : ReadWriteCloser) (e : error) (w' : W) :
  returned (openFifo ctx fn flag perm w) = Some ((rwc, e), w') →
  ∃ w1 err, sys_Stat fn w = Some (w1, err) ∧
    ((not_nil err = true ∧ rwc = None ∧ e = err ∧ w' = w1)
     ∨ (∃ e2, sys_Mkfifo fn (Z.land perm os.ModePerm) w1 = Some (w', e2)
          ∧ not_nil e2 = true ∧ os.IsExist e2 = false ∧ rwc = None
          ∧ e = withStack (withMessage e2 ("error creating fifo " +:+ fn)))
     ∨ (∃ w2, sys_OpenFile fn (Z.land flag (Z.lnot syscall.O_CREAT)) 0 w2
              = Some (w', (rwc, e)))).
Proof.
  rewrite openFifo_run. cbv zeta. rewrite (proj1 (uint32_perm perm)).
  destruct (sys_Stat fn w) as [[w1 err]|]; [|discriminate].
  intros Hret. exists w1, err. split; [done|].
  destruct (not_nil err) eqn:Hnil.
  - destruct (os.IsNotExist err && _).
    + destruct (sys_Mkfifo _ _ w1) as [[w2 e2]|]; [|discriminate].
      destruct (not_nil e2 && negb (os.IsExist e2)) eqn:Hbad.
      * apply andb_true_iff in Hbad as [Hn2 Hex%negb_true_iff].
        simpl in Hret. injection Hret as <- <- <-.
        right; left. exists e2. by rewrite (Wrapf_not_nil _ _ Hn2).
      * right; right. exists w2. unfold after in Hret; simpl in Hret.
        rewrite os_OpenFile_run in Hret.
        destruct (sys_OpenFile _ _ _ w2) as [[w3 [rwc3 e3]]|]; [|discriminate].
        simpl in Hret. by injection Hret as <- <- <-.
    + simpl in Hret. injection Hret as <- <- <-. by left.
  - right; right. exists w1. unfold after in Hret; simpl in Hret.
    rewrite os_OpenFile_run in Hret.
    destruct (sys_OpenFile _ _ _ w1) as [[w3 [rwc3 e3]]|]; [|discriminate].
    simpl in Hret. by injection Hret as <- <- <-.
Qed.

(** C2, amended: when the probe fails for a reason other than not-exists,
    openFifo fails after that one call and returns the error of the probe
    as it is, with no context added.  Of all the errors openFifo returns,
    only the error of the creation call is put under a message; the error of
    the probe and the error of the open are returned as they are: whenever
    the open call is reached and returns, with a handle or with an error,
    openFifo returns what it returned. *)
Theorem openFifo_probe_error_unchanged (ctx : Context) (fn : string) (flag perm : Z) (w : W) :
  (∀ w1 err, sys_Stat fn w = Some (w1, err) → not_nil err = true →
     os.IsNotExist err = false →
     openFifo ctx fn flag perm w = Run [CallStat fn] (Some ((None, err), w1)))
  ∧ (∀ rwc e w', returned (openFifo ctx fn flag perm w) = Some ((rwc, e), w') →
       ∃ w1 err, sys_Stat fn w = Some (w1, err) ∧
         ((not_nil err = true ∧ rwc = None ∧ e = err ∧ w' = w1)
          ∨ (∃ e2, sys_Mkfifo fn (Z.land perm os.ModePerm) w1 = Some (w', e2)
               ∧ not_nil e2 = true ∧ os.IsExist e2 = false ∧ rwc = None
               ∧ e = withStack (withMessage e2 ("error creating fifo " +:+ fn)))
          ∨ (∃ w2, sys_OpenFile fn (Z.land flag (Z.lnot syscall.O_CREAT)) 0 w2
                   = Some (w', (rwc, e)))))
  ∧ (∀ w1 err, sys_Stat fn w = Some (w1, err) → not_nil err = true →
       Z.land flag syscall.O_CREAT = 0 →
       openFifo ctx fn flag perm w = Run [CallStat fn] (Some ((None, err), w1)))
  ∧ (∀ w1 w2 rwc e, sys_Stat fn w = Some (w1, ErrNil) →
       sys_OpenFile fn (Z.land flag (Z.lnot syscall.O_CREAT)) 0 w1 = Some (w2, (rwc, e)) →
       openFifo ctx fn flag perm w
       = Run [CallStat fn; CallOpenFile fn (Z.land flag (Z.lnot syscall.O_CREAT)) 0]
           (Some ((rwc, e), w2)))
  ∧ (∀ w1 err w2 e2, sys_Stat fn w = Some (w1, err) → os.IsNotExist err = true →
       Z.land flag syscall.O_CREAT ≠ 0 →
       sys_Mkfifo fn (Z.land perm os.ModePerm) w1 = Some (w2, e2) →
       (not_nil e2 = true → os.IsExist e2 = false →
          openFifo ctx fn flag perm w
          = Run [CallStat fn; CallMkfifo fn (Z.land perm os.ModePerm)]
              (Some ((None, withStack (withMessage e2 ("error creating fifo " +:+ fn))), w2)))
       ∧ (∀ w3 rwc e, e2 = ErrNil ∨ os.IsExist e2 = true →
            sys_OpenFile fn (Z.land flag (Z.lnot syscall.O_CREAT)) 0 w2
              = Some (w3, (rwc, e)) →
            openFifo ctx fn flag perm w
            = Run [CallStat fn; CallMkfifo fn (Z.land perm os.ModePerm);
                   CallOpenFile fn (Z.land flag (Z.lnot syscall.O_CREAT)) 0]
                (Some ((rwc, e), w3)))).
Proof.
  split; [|split; [apply openFifo_returns|]].
  { intros w1 err Hstat Hnil Hne. rewrite openFifo_run. cbv zeta.
    by rewrite Hstat, Hnil, Hne. }
  rewrite openFifo_run. cbv zeta. rewrite (proj1 (uint32_perm perm)).
  split; [|split].
  - intros w1 err -> -> ->. by rewrite andb_false_r.
  - intros w1 w2 rwc e -> Hopen. simpl. unfold after. by rewrite os_OpenFile_run, Hopen.
  - intros w1 err w2 e2 -> Hne Hflag ->.
    rewrite (IsNotExist_not_nil _ Hne), Hne.
    apply Z.eqb_neq in Hflag as ->. simpl. split.
    + intros Hnil ->. by rewrite Hnil, (Wrapf_not_nil _ _ Hnil).
    + intros w3 rwc e Hok Hopen.
      assert (not_nil e2 && negb (os.IsExist e2) = false) as ->.
      { destruct Hok as [->| ->]; [done|apply andb_false_r]. }
      unfold after. by rewrite os_OpenFile_run, Hopen.
Qed.

(** C3: when the probe reports that nothing exists at the path, Open fails
    with that not-found error after the probe alone.  Open never makes the
    creation call and never opens with the creation flag.  Whatever Open
    returns is the error of the probe as it is, or what the open call
    returned as it is; and Open does return them: every error of the probe
    at once, and every result of the open call, error or handle, whenever
    that call returns. *)
Theorem Open_never_creates (path : string) (w : W) :
  (∀ w1 err, sys_Stat path w = Some (w1, err) → os.IsNotExist err = true →
     Open path w = Run [CallStat path] (Some ((None, err), w1)))
  ∧ (∀ c, c ∈ calls (Open path w) →
       c = CallStat path
       ∨ (c = CallOpenFile path syscall.O_WRONLY 0
          ∧ Z.land syscall.O_WRONLY syscall.O_CREAT = 0))
  ∧ (∀ rwc e w', returned (Open path w) = Some ((rwc, e), w') →
       (sys_Stat path w = Some (w', e) ∧ not_nil e = true ∧ rwc = None)
       ∨ (∃ w1, sys_Stat path w = Some (w1, ErrNil)
            ∧ sys_OpenFile path syscall.O_WRONLY 0 w1 = Some (w', (rwc, e))))
  ∧ (∀ w1 err, sys_Stat path w = Some (w1, err) → not_nil err = true →
       Open path w = Run [CallStat path] (Some ((None, err), w1)))
  ∧ (∀ w1 w2 rwc e, sys_Stat path w = Some (w1, ErrNil) →
       sys_OpenFile path syscall.O_WRONLY 0 w1 = Some (w2, (rwc, e)) →
       Open path w
       = Run [CallStat path; CallOpenFile path syscall.O_WRONLY 0] (Some ((rwc, e), w2))).
Proof.
  rewrite Open_run. repeat apply conj.
  - intros w1 err -> Hne. by rewrite (IsNotExist_not_nil _ Hne).
  - intros c. destruct (sys_Stat path w) as [[w1 err]|].
    + destruct (not_nil err).
      * intros ->%list_elem_of_singleton. by left.
      * unfold after. rewrite os_OpenFile_calls. simpl.
        intros [->| ->%list_elem_of_singleton]%elem_of_cons; [by left|by right].
    + intros ->%list_elem_of_singleton. by left.
  - intros rwc e w'. destruct (sys_Stat path w) as [[w1 err]|]; [|discriminate].
    destruct (not_nil err) eqn:Hnil.
    + simpl. intros [= <- <- <-]. by left.
    + unfold after; simpl. rewrite os_OpenFile_run.
      apply negb_false_iff, bool_decide_eq_true in Hnil as ->.
      destruct (sys_OpenFile _ _ _ w1) as [[w3 [rwc3 e3]]|] eqn:Hopen; [|discriminate].
      simpl. intros [= <- <- <-]. right. by exists w1.
  - by intros w1 err -> ->.
  - intros w1 w2 rwc e -> Hopen. simpl. unfold after. by rewrite os_OpenFile_run, Hopen.
Qed.

(** C4, amended: New reports no creation error when the probe finds an
    entry (it makes no creation call) nor when the creation call fails
    because the entry exists by now: in both cases it goes on to the open
    call and returns what that call returns, a handle or the error of the
    open as it is.  Any other failure of the creation call is returned under
    the message of this package, and no open is made. *)
Theorem New_creation_errors (path : string) (w : W) :
  (∀ w1, sys_Stat path w = Some (w1, ErrNil) →
     New path w = after [CallStat path] (os_OpenFile path syscall.O_NONBLOCK 0 w1))
  ∧ (∀ w1 err w2 e2, sys_Stat path w = Some (w1, err) → os.IsNotExist err = true →
       sys_Mkfifo path 384 w1 = Some (w2, e2) →
       (os.IsExist e2 = true →
          New path w = after [CallStat path; CallMkfifo path 384]
                         (os_OpenFile path syscall.O_NONBLOCK 0 w2))
       ∧ (not_nil e2 = true → os.IsExist e2 = false →
          New path w = Run [CallStat path; CallMkfifo path 384]
            (Some ((None, withStack (withMessage e2 ("error creating fifo " +:+ path))), w2)))).
Proof.
  rewrite New_run. split.
  - by intros w1 ->.
  - intros w1 err w2 e2 -> Hne Hmk.
    rewrite (IsNotExist_not_nil _ Hne), Hne, Hmk. split.
    + intros ->. by rewrite andb_false_r.
    + intros Hnil ->. by rewrite Hnil, (Wrapf_not_nil _ _ Hnil).
Qed.

(** C5: New calls openFifo with the creation flag, read-only access, the
    non-blocking flag and mode 0600.  Every creation call of openFifo is for
    its path with the mode masked to the nine permission bits; for New that
    is 0600, read and write for the owner and nothing else, and New makes
    that call whenever the probe reports that nothing exists. *)
Theorem New_creates_with_mode_0600 (path : string) (w : W) :
  let flag := Z.lor (Z.lor syscall.O_RDONLY syscall.O_CREAT) syscall.O_NONBLOCK in
  New path w = openFifo Background path flag 384 w
  ∧ 384 = 6 * 8 ^ 2 + 0 * 8 + 0
  ∧ Z.land flag syscall.O_CREAT ≠ 0
  ∧ Z.land flag syscall.O_ACCMODE = syscall.O_RDONLY
  ∧ Z.land flag syscall.O_NONBLOCK ≠ 0
  ∧ (∀ ctx fn flag perm p mode,
       CallMkfifo p mode ∈ calls (openFifo ctx fn flag perm w) →
       p = fn ∧ mode = Z.land perm os.ModePerm ∧ 0 <= mode <= 511)
  ∧ (∀ p mode, CallMkfifo p mode ∈ calls (New path w) →
       p = path ∧ mode = 384 ∧ mode = Z.lor posix.S_IRUSR posix.S_IWUSR)
  ∧ (∀ w1 err, sys_Stat path w = Some (w1, err) → os.IsNotExist err = true →
       CallMkfifo path 384 ∈ calls (New path w)).
Proof.
  assert (∀ ctx fn flag perm p mode,
    CallMkfifo p mode ∈ calls (openFifo ctx fn flag perm w) →
    p = fn ∧ mode = Z.land perm os.ModePerm ∧ 0 <= mode <= 511) as Hmk.
  { intros ctx fn flag perm p mode Hin.
    destruct (openFifo_calls ctx fn flag perm w) as (made & E & Hsub).
    rewrite E in Hin. apply elem_of_cons in Hin as [[=]|Hin].
    apply Hsub, elem_of_cons in Hin as [[= -> ->]|Hin].
    - split; [done|]. split; [done|]. apply uint32_perm.
    - by apply list_elem_of_singleton in Hin. }
  cbv zeta. do 5 (split; [done|]). split; [exact Hmk|]. split.
  - intros p mode Hin. apply (Hmk Background path _ 384) in Hin as (-> & -> & _).
    split; [done|]. split; reflexivity.
  - intros w1 err Hstat Hne. rewrite New_run, Hstat, (IsNotExist_not_nil _ Hne), Hne.
    destruct (sys_Mkfifo _ _ w1) as [[w2 e2]|]; [|apply elem_of_cons; right; left].
    destruct (not_nil e2 && _); simpl; apply elem_of_cons; right; left.
Qed.

(** C7: whatever the flags given to openFifo, every open call it makes is
    for its path with those flags without the creation bit: bit 6 is clear
    and every other bit is as given, whether the creation call was made
    before or not.  The cleared flags of a 64-bit int are a 64-bit int. *)
Theorem openFifo_opens_without_O_CREAT (ctx : Context) (fn : string) (flag perm : Z) (w : W)
    (name : string) (f p : Z) :
  CallOpenFile name f p ∈ calls (openFifo ctx fn flag perm w) →
  name = fn ∧ p = 0
  ∧ f = Z.land flag (Z.lnot syscall.O_CREAT)
  ∧ Z.land f syscall.O_CREAT = 0
  ∧ Z.testbit f 6 = false
  ∧ (∀ i, 0 <= i → i ≠ 6 → Z.testbit f i = Z.testbit flag i)
  ∧ (- 2 ^ 63 <= flag < 2 ^ 63 → - 2 ^ 63 <= f < 2 ^ 63).
Proof.
  intros Hin.
  destruct (openFifo_calls ctx fn flag perm w) as (made & E & Hsub).
  rewrite E in Hin. apply elem_of_cons in Hin as [[=]|Hin].
  apply Hsub, elem_of_cons in Hin as [[=]|Hin].
  apply list_elem_of_singleton in Hin as [= -> -> ->].
  destruct (clear_O_CREAT flag) as (H0 & H6 & Hother & Hrange). done.
Qed.

End openFifo_claims.

(** ** The package on the POSIX directory *)

(** C1: openFifo with a context that is already cancelled, on a FIFO that no
    reader ever opens: the probe succeeds, the blocking open for writing is
    made and never returns.  The cancellation is not looked at: nothing is
    returned, so no cancellation error either. *)
Theorem openFifo_cancelled_context_waits :
  context.Err (cancelCtx true) = context.Canceled
  ∧ calls (openFifo (cancelCtx true) "f" syscall.O_WRONLY 384 (posix.dir_with_fifo "f"))
    = [CallStat "f"; CallOpenFile "f" syscall.O_WRONLY 0]
  ∧ returned (openFifo (cancelCtx true) "f" syscall.O_WRONLY 384 (posix.dir_with_fifo "f"))
    = None.
Proof. by vm_compute. Qed.

(** C2 as the claim has it fails: in a directory that may not be searched
    the probe fails with a permission error, which is not a not-exists
    error, and New returns that very error, under no message. *)
Lemma New_probe_error_has_no_context :
  let err := PathError "stat" "f" (Errno syscall.EACCES) in
  sys_Stat "f" posix.unsearchable_dir = Some (posix.unsearchable_dir, err)
  ∧ not_nil err = true
  ∧ os.IsNotExist err = false
  ∧ value (New "f" posix.unsearchable_dir) = Some (None, err)
  ∧ (∀ msg, err ≠ errors.Wrapf err msg)
  ∧ (∀ cause msg, err ≠ withStack (withMessage cause msg)).
Proof. cbv zeta. do 4 (split; [by vm_compute|]). split; intros; discriminate. Qed.

Lemma openFifo_probe_error_unchanged_witness :
  (sys_Stat "f" posix.unsearchable_dir
     = Some (posix.unsearchable_dir, PathError "stat" "f" (Errno syscall.EACCES))
   ∧ not_nil (PathError "stat" "f" (Errno syscall.EACCES)) = true
   ∧ os.IsNotExist (PathError "stat" "f" (Errno syscall.EACCES)) = false
   ∧ openFifo (cancelCtx false) "f" 2112 384 posix.unsearchable_dir
     = Run [CallStat "f"]
         (Some ((None, PathError "stat" "f" (Errno syscall.EACCES)), posix.unsearchable_dir)))
  ∧ (returned (openFifo Background "f" 2112 384 posix.readonly_dir)
     = Some ((None, withStack (withMessage (Errno syscall.EACCES) "error creating fifo f")),
             posix.readonly_dir)
     ∧ ∃ w1 err, sys_Stat "f" posix.readonly_dir = Some (w1, err) ∧
         ((not_nil err = true ∧ (None : ReadWriteCloser) = None
           ∧ withStack (withMessage (Errno syscall.EACCES) "error creating fifo f") = err
           ∧ posix.readonly_dir = w1)
          ∨ (∃ e2, sys_Mkfifo "f" (Z.land 384 os.ModePerm) w1 = Some (posix.readonly_dir, e2)
               ∧ not_nil e2 = true ∧ os.IsExist e2 = false ∧ (None : ReadWriteCloser) = None
               ∧ withStack (withMessage (Errno syscall.EACCES) "error creating fifo f")
                 = withStack (withMessage e2 ("error creating fifo " +:+ "f")))
          ∨ (∃ w2, sys_OpenFile "f" (Z.land 2112 (Z.lnot syscall.O_CREAT)) 0 w2
                   = Some (posix.readonly_dir,
                           (None, withStack (withMessage (Errno syscall.EACCES)
                                               "error creating fifo f"))))))
  ∧ (sys_Stat "f" posix.empty_dir
       = Some (posix.empty_dir, PathError "stat" "f" (Errno syscall.ENOENT))
     ∧ not_nil (PathError "stat" "f" (Errno syscall.ENOENT)) = true
     ∧ Z.land syscall.O_WRONLY syscall.O_CREAT = 0
     ∧ openFifo Background "f" syscall.O_WRONLY 384 posix.empty_dir
       = Run [CallStat "f"]
           (Some ((None, PathError "stat" "f" (Errno syscall.ENOENT)), posix.empty_dir)))
  ∧ (sys_Stat "f" (posix.dir_with_unreadable_fifo "f")
       = Some (posix.dir_with_unreadable_fifo "f", ErrNil)
     ∧ sys_OpenFile "f" (Z.land 2112 (Z.lnot syscall.O_CREAT)) 0
         (posix.dir_with_unreadable_fifo "f")
       = Some (posix.dir_with_unreadable_fifo "f",
               (None, PathError "open" "f" (Errno syscall.EACCES)))
     ∧ openFifo Background "f" 2112 384 (posix.dir_with_unreadable_fifo "f")
       = Run [CallStat "f"; CallOpenFile "f" (Z.land 2112 (Z.lnot syscall.O_CREAT)) 0]
           (Some ((None, PathError "open" "f" (Errno syscall.EACCES)),
                  posix.dir_with_unreadable_fifo "f")))
  ∧ (sys_Stat "f" posix.readonly_dir
       = Some (posix.readonly_dir, PathError "stat" "f" (Errno syscall.ENOENT))
     ∧ os.IsNotExist (PathError "stat" "f" (Errno syscall.ENOENT)) = true
     ∧ Z.land 2112 syscall.O_CREAT ≠ 0
     ∧ sys_Mkfifo "f" (Z.land 384 os.ModePerm) posix.readonly_dir
       = Some (posix.readonly_dir, Errno syscall.EACCES)
     ∧ not_nil (Errno syscall.EACCES) = true
     ∧ os.IsExist (Errno syscall.EACCES) = false
     ∧ openFifo Background "f" 2112 384 posix.readonly_dir
       = Run [CallStat "f"; CallMkfifo "f" (Z.land 384 os.ModePerm)]
           (Some ((None, withStack (withMessage (Errno syscall.EACCES)
                                      ("error creating fifo " +:+ "f"))),
                  posix.readonly_dir)))
  ∧ (sys_Stat "f" (posix.dir_with_racing_peer "f" 128)
       = Some (posix.mkWorld 448 ∅ 3 [posix.PeerMkfifo "f" 128],
               PathError "stat" "f" (Errno syscall.ENOENT))
     ∧ sys_Mkfifo "f" (Z.land 384 os.ModePerm)
         (posix.mkWorld 448 ∅ 3 [posix.PeerMkfifo "f" 128])
       = Some (posix.dir_with_unreadable_fifo "f", Errno syscall.EEXIST)
     ∧ (Errno syscall.EEXIST = ErrNil ∨ os.IsExist (Errno syscall.EEXIST) = true)
     ∧ sys_OpenFile "f" (Z.land 2112 (Z.lnot syscall.O_CREAT)) 0
         (posix.dir_with_unreadable_fifo "f")
       = Some (posix.dir_with_unreadable_fifo "f",
               (None, PathError "open" "f" (Errno syscall.EACCES)))
     ∧ openFifo Background "f" 2112 384 (posix.dir_with_racing_peer "f" 128)
       = Run [CallStat "f"; CallMkfifo "f" (Z.land 384 os.ModePerm);
              CallOpenFile "f" (Z.land 2112 (Z.lnot syscall.O_CREAT)) 0]
           (Some ((None, PathError "open" "f" (Errno syscall.EACCES)),
                  posix.dir_with_unreadable_fifo "f"))).
Proof.
  split; [|split; [|split; [|split; [|split]]]].
  - do 3 (split; [by vm_compute|]).
    pose proof (openFifo_probe_error_unchanged (cancelCtx false) "f" 2112 384
                  posix.unsearchable_dir) as (Hprobe & _).
    apply Hprobe; by vm_compute.
  - split; [by vm_compute|].
    pose proof (openFifo_probe_error_unchanged Background "f" 2112 384
                  posix.readonly_dir) as (_ & Hclass & _).
    apply Hclass. by vm_compute.
  - do 3 (split; [by vm_compute|]).
    pose proof (openFifo_probe_error_unchanged Background "f" syscall.O_WRONLY 384
                  posix.empty_dir) as (_ & _ & Hnocreat & _).
    apply Hnocreat; by vm_compute.
  - do 2 (split; [by vm_compute|]).
    pose proof (openFifo_probe_error_unchanged Background "f" 2112 384
                  (posix.dir_with_unreadable_fifo "f")) as (_ & _ & _ & Hopen & _).
    apply (Hopen (posix.dir_with_unreadable_fifo "f")); by vm_compute.
  - do 6 (split; [by vm_compute|]).
    pose proof (openFifo_probe_error_unchanged Background "f" 2112 384
                  posix.readonly_dir) as (_ & _ & _ & _ & Hcreate).
    apply (Hcreate posix.readonly_dir (PathError "stat" "f" (Errno syscall.ENOENT))
             posix.readonly_dir (Errno syscall.EACCES)); by vm_compute.
  - split; [by vm_compute|]. split; [by vm_compute|]. split; [by right|].
    split; [by vm_compute|].
    pose proof (openFifo_probe_error_unchanged Background "f" 2112 384
                  (posix.dir_with_racing_peer "f" 128)) as (_ & _ & _ & _ & Hcreate).
    apply (Hcreate (posix.mkWorld 448 ∅ 3 [posix.PeerMkfifo "f" 128])
             (PathError "stat" "f" (Errno syscall.ENOENT))
             (posix.dir_with_unreadable_fifo "f") (Errno syscall.EEXIST));
      try (by vm_compute). by right.
Defined.

Lemma Open_never_creates_witness :
  (sys_Stat "f" posix.empty_dir
     = Some (posix.empty_dir, PathError "stat" "f" (Errno syscall.ENOENT))
   ∧ os.IsNotExist (PathError "stat" "f" (Errno syscall.ENOENT)) = true
   ∧ Open "f" posix.empty_dir
     = Run [CallStat "f"]
         (Some ((None, PathError "stat" "f" (Errno syscall.ENOENT)), posix.empty_dir)))
  ∧ (CallStat "f" ∈ calls (Open "f" posix.empty_dir)
     ∧ (CallStat "f" = CallStat "f"
        ∨ (CallStat "f" = CallOpenFile "f" syscall.O_WRONLY 0
           ∧ Z.land syscall.O_WRONLY syscall.O_CREAT = 0)))
  ∧ (returned (Open "f" posix.unsearchable_dir)
     = Some ((None, PathError "stat" "f" (Errno syscall.EACCES)), posix.unsearchable_dir)
     ∧ ((sys_Stat "f" posix.unsearchable_dir
           = Some (posix.unsearchable_dir, PathError "stat" "f" (Errno syscall.EACCES))
         ∧ not_nil (PathError "stat" "f" (Errno syscall.EACCES)) = true
         ∧ (None : ReadWriteCloser) = None)
        ∨ (∃ w1, sys_Stat "f" posix.unsearchable_dir = Some (w1, ErrNil)
             ∧ sys_OpenFile "f" syscall.O_WRONLY 0 w1
               = Some (posix.unsearchable_dir,
                       (None, PathError "stat" "f" (Errno syscall.EACCES))))))
  ∧ (sys_Stat "f" posix.unsearchable_dir
       = Some (posix.unsearchable_dir, PathError "stat" "f" (Errno syscall.EACCES))
     ∧ not_nil (PathError "stat" "f" (Errno syscall.EACCES)) = true
     ∧ Open "f" posix.unsearchable_dir
       = Run [CallStat "f"]
           (Some ((None, PathError "stat" "f" (Errno syscall.EACCES)),
                  posix.unsearchable_dir)))
  ∧ (sys_Stat "f" (posix.dir_with_unwritable_fifo "f")
       = Some (posix.dir_with_unwritable_fifo "f", ErrNil)
     ∧ sys_OpenFile "f" syscall.O_WRONLY 0 (posix.dir_with_unwritable_fifo "f")
       = Some (posix.dir_with_unwritable_fifo "f",
               (None, PathError "open" "f" (Errno syscall.EACCES)))
     ∧ Open "f" (posix.dir_with_unwritable_fifo "f")
       = Run [CallStat "f"; CallOpenFile "f" syscall.O_WRONLY 0]
           (Some ((None, PathError "open" "f" (Errno syscall.EACCES)),
                  posix.dir_with_unwritable_fifo "f"))).
Proof.
  split; [|split; [|split; [|split]]].
  - do 2 (split; [by vm_compute|]).
    pose proof (Open_never_creates "f" posix.empty_dir) as (Hnotfound & _).
    apply Hnotfound; by vm_compute.
  - assert (CallStat "f" ∈ calls (Open "f" posix.empty_dir)) as Hin
      by (apply list_elem_of_In; vm_compute; tauto).
    split; [exact Hin|].
    pose proof (Open_never_creates "f" posix.empty_dir) as (_ & Hcalls & _).
    exact (Hcalls _ Hin).
  - split; [by vm_compute|].
    pose proof (Open_never_creates "f" posix.unsearchable_dir) as (_ & _ & Hclass & _).
    apply Hclass. by vm_compute.
  - do 2 (split; [by vm_compute|]).
    pose proof (Open_never_creates "f" posix.unsearchable_dir) as (_ & _ & _ & Hprobe & _).
    apply Hprobe; by vm_compute.
  - do 2 (split; [by vm_compute|]).
    pose proof (Open_never_creates "f" (posix.dir_with_unwritable_fifo "f"))
      as (_ & _ & _ & _ & Hopen).
    apply (Hopen (posix.dir_with_unwritable_fifo "f")); by vm_compute.
Defined.

(** C4 as the claim has it fails: New does not always succeed when the entry
    exists.  A FIFO of mode 0200 is there at the probe, no creation call is
    made, and the open fails with a permission error, which New returns.
    The same happens when a peer makes that FIFO between the probe and the
    creation call: the creation fails with EEXIST, and the open fails. *)
Lemma New_fails_on_existing_entry :
  (sys_Stat "f" (posix.dir_with_unreadable_fifo "f")
     = Some (posix.dir_with_unreadable_fifo "f", ErrNil)
   ∧ calls (New "f" (posix.dir_with_unreadable_fifo "f"))
     = [CallStat "f"; CallOpenFile "f" syscall.O_NONBLOCK 0]
   ∧ value (New "f" (posix.dir_with_unreadable_fifo "f"))
     = Some (None, PathError "open" "f" (Errno syscall.EACCES)))
  ∧ (∃ w1 w2,
       sys_Stat "f" (posix.dir_with_racing_peer "f" 128)
         = Some (w1, PathError "stat" "f" (Errno syscall.ENOENT))
       ∧ sys_Mkfifo "f" 384 w1 = Some (w2, Errno syscall.EEXIST)
       ∧ os.IsExist (Errno syscall.EEXIST) = true
       ∧ calls (New "f" (posix.dir_with_racing_peer "f" 128))
         = [CallStat "f"; CallMkfifo "f" 384; CallOpenFile "f" syscall.O_NONBLOCK 0]
       ∧ value (New "f" (posix.dir_with_racing_peer "f" 128))
         = Some (None, PathError "open" "f" (Errno syscall.EACCES))).
Proof.
  split; [by vm_compute|].
  eexists _, _. split; [by vm_compute|]. by vm_compute.
Qed.

Lemma New_creation_errors_witness :
  (sys_Stat "f" (posix.dir_with_fifo "f") = Some (posix.dir_with_fifo "f", ErrNil)
   ∧ New "f" (posix.dir_with_fifo "f")
     = after [CallStat "f"] (os_OpenFile "f" syscall.O_NONBLOCK 0 (posix.dir_with_fifo "f")))
  ∧ (∃ w1 w2,
       sys_Stat "f" (posix.dir_with_racing_peer "f" 384)
         = Some (w1, PathError "stat" "f" (Errno syscall.ENOENT))
       ∧ os.IsNotExist (PathError "stat" "f" (Errno syscall.ENOENT)) = true
       ∧ sys_Mkfifo "f" 384 w1 = Some (w2, Errno syscall.EEXIST)
       ∧ os.IsExist (Errno syscall.EEXIST) = true
       ∧ New "f" (posix.dir_with_racing_peer "f" 384)
         = after [CallStat "f"; CallMkfifo "f" 384] (os_OpenFile "f" syscall.O_NONBLOCK 0 w2)
       ∧ value (New "f" (posix.dir_with_racing_peer "f" 384))
         = Some (Some (mkFile 3 "f"), ErrNil))
  ∧ (sys_Stat "f" posix.readonly_dir
       = Some (posix.readonly_dir, PathError "stat" "f" (Errno syscall.ENOENT))
     ∧ os.IsNotExist (PathError "stat" "f" (Errno syscall.ENOENT)) = true
     ∧ sys_Mkfifo "f" 384 posix.readonly_dir = Some (posix.readonly_dir, Errno syscall.EACCES)
     ∧ not_nil (Errno syscall.EACCES) = true
     ∧ os.IsExist (Errno syscall.EACCES) = false
     ∧ New "f" posix.readonly_dir
       = Run [CallStat "f"; CallMkfifo "f" 384]
           (Some ((None, withStack (withMessage (Errno syscall.EACCES)
                                      ("error creating fifo " +:+ "f"))),
                  posix.readonly_dir))).
Proof.
  split; [|split].
  - split; [by vm_compute|].
    apply (proj1 (New_creation_errors "f" (posix.dir_with_fifo "f"))). by vm_compute.
  - eexists _, _.
    assert (sys_Stat "f" (posix.dir_with_racing_peer "f" 384)
            = Some (posix.mkWorld 448 ∅ 3 [posix.PeerMkfifo "f" 384],
                    PathError "stat" "f" (Errno syscall.ENOENT))) as Hstat by by vm_compute.
    assert (sys_Mkfifo "f" 384 (posix.mkWorld 448 ∅ 3 [posix.PeerMkfifo "f" 384])
            = Some (posix.dir_with_fifo "f", Errno syscall.EEXIST)) as Hmk by by vm_compute.
    split; [exact Hstat|]. split; [by vm_compute|]. split; [exact Hmk|].
    split; [by vm_compute|]. split; [|by vm_compute].
    apply (proj1 (proj2 (New_creation_errors "f" (posix.dir_with_racing_peer "f" 384))
                    _ _ _ _ Hstat eq_refl Hmk)).
    by vm_compute.
  - do 5 (split; [by vm_compute|]).
    apply (proj2 (proj2 (New_creation_errors "f" posix.readonly_dir)
                    posix.readonly_dir (PathError "stat" "f" (Errno syscall.ENOENT))
                    posix.readonly_dir (Errno syscall.EACCES)
                    ltac:(by vm_compute) ltac:(by vm_compute) ltac:(by vm_compute)));
      by vm_compute.
Defined.

Lemma New_creates_with_mode_0600_witness :
  (CallMkfifo "f" 384 ∈ calls (openFifo Background "f" 2112 384 posix.empty_dir)
   ∧ "f" = "f" ∧ 384 = Z.land 384 os.ModePerm ∧ 0 <= 384 <= 511)
  ∧ (CallMkfifo "f" 384 ∈ calls (New "f" posix.empty_dir)
     ∧ "f" = "f" ∧ 384 = 384 ∧ 384 = Z.lor posix.S_IRUSR posix.S_IWUSR)
  ∧ (sys_Stat "f" posix.empty_dir
       = Some (posix.empty_dir, PathError "stat" "f" (Errno syscall.ENOENT))
     ∧ os.IsNotExist (PathError "stat" "f" (Errno syscall.ENOENT)) = true
     ∧ CallMkfifo "f" 384 ∈ calls (New "f" posix.empty_dir)).
Proof.
  assert (CallMkfifo "f" 384 ∈ calls (New "f" posix.empty_dir)) as Hin
    by (apply list_elem_of_In; vm_compute; tauto).
  pose proof (New_creates_with_mode_0600 "f" posix.empty_dir)
    as (_ & _ & _ & _ & _ & Hany & Hnew & Hmade).
  split; [|split].
  - split; [exact Hin|]. exact (Hany Background "f" 2112 384 "f" 384 Hin).
  - split; [exact Hin|]. exact (Hnew "f" 384 Hin).
  - do 2 (split; [by vm_compute|]).
    apply (Hmade posix.empty_dir (PathError "stat" "f" (Errno syscall.ENOENT)));
      by vm_compute.
Defined.

Lemma openFifo_opens_without_O_CREAT_witness :
  CallOpenFile "f" 2048 0 ∈ calls (openFifo Background "f" 2112 384 posix.empty_dir)
  ∧ "f" = "f" ∧ 0 = 0
  ∧ 2048 = Z.land 2112 (Z.lnot syscall.O_CREAT)
  ∧ Z.land 2048 syscall.O_CREAT = 0
  ∧ Z.testbit 2048 6 = false
  ∧ (∀ i, 0 <= i → i ≠ 6 → Z.testbit 2048 i = Z.testbit 2112 i)
  ∧ (- 2 ^ 63 <= 2112 < 2 ^ 63 → - 2 ^ 63 <= 2048 < 2 ^ 63).
Proof.
  assert (CallOpenFile "f" 2048 0 ∈ calls (openFifo Background "f" 2112 384 posix.empty_dir))
    as Hin by (apply list_elem_of_In; vm_compute; tauto).
  split; [exact Hin|].
  exact (openFifo_opens_without_O_CREAT Background "f" 2112 384 posix.empty_dir
           "f" 2048 0 Hin).
Defined.

(** ** Further properties of openFifo, for every operating system *)

Lemma keep_flag_without_O_CREAT (flag : Z) :
  Z.land flag syscall.O_CREAT = 0 → Z.land flag (Z.lnot syscall.O_CREAT) = flag.
Proof.
  intros Hclear. destruct (clear_O_CREAT flag) as (_ & H6 & Hother & _).
  apply Z.bits_inj'. intros i Hi.
  destruct (decide (i = 6)) as [->|Hne]; [|by apply Hother].
  rewrite H6. symmetry.
  assert (Z.testbit (Z.land flag syscall.O_CREAT) 6 = false) as Hbit
    by (by rewrite Hclear, Z.bits_0).
  rewrite Z.land_spec in Hbit. by rewrite andb_true_r in Hbit.
Qed.

Lemma clear_after_set_O_CREAT (flag : Z) :
  Z.land (Z.lor flag syscall.O_CREAT) (Z.lnot syscall.O_CREAT)
  = Z.land flag (Z.lnot syscall.O_CREAT).
Proof.
  by rewrite Z.land_lor_distr_l, Z.land_lnot_diag, Z.lor_0_r.
Qed.

Section openFifo_more.
Context {W : Type} `{!OS W}.

(** X1: openFifo makes the probe first, then at most one creation call, then
    at most one open call, all three for its own path; it makes no other
    call, repeats none and never removes anything. *)
Theorem openFifo_call_sequence (ctx : Context) (fn : string) (flag perm : Z) (w : W) :
  let mk := CallMkfifo fn (Z.land perm os.ModePerm) in
  let op := CallOpenFile fn (Z.land flag (Z.lnot syscall.O_CREAT)) 0 in
  calls (openFifo ctx fn flag perm w) = [CallStat fn]
  ∨ calls (openFifo ctx fn flag perm w) = [CallStat fn; mk]
  ∨ calls (openFifo ctx fn flag perm w) = [CallStat fn; op]
  ∨ calls (openFifo ctx fn flag perm w) = [CallStat fn; mk; op].
Proof.
  cbv zeta. rewrite openFifo_run. cbv zeta. rewrite (proj1 (uint32_perm perm)).
  destruct (sys_Stat fn w) as [[w1 err]|]; [|by left].
  destruct (not_nil err).
  - destruct (os.IsNotExist err && _); [|by left].
    destruct (sys_Mkfifo _ _ w1) as [[w2 err2]|]; [|by right; left].
    destruct (not_nil err2 && _); [by right; left|].
    do 3 right. unfold after. by rewrite os_OpenFile_calls.
  - right; right; left. unfold after. by rewrite os_OpenFile_calls.
Qed.

(** X2: without the creation flag openFifo never makes the creation call,
    hands the flags to the open call as they are, and does not depend on the
    mode at all. *)
Theorem openFifo_without_O_CREAT (ctx : Context) (fn : string) (flag perm perm' : Z) (w : W) :
  Z.land flag syscall.O_CREAT = 0 →
  openFifo ctx fn flag perm w = openFifo ctx fn flag perm' w
  ∧ (∀ p mode, CallMkfifo p mode ∉ calls (openFifo ctx fn flag perm w))
  ∧ (∀ name f p, CallOpenFile name f p ∈ calls (openFifo ctx fn flag perm w) → f = flag).
Proof.
  intros Hclear.
  assert (openFifo ctx fn flag perm w =
          match sys_Stat fn w with
          | None => Run [CallStat fn] None
          | Some (w1, err) =>
              if not_nil err then Run [CallStat fn] (Some ((None, err), w1))
              else after [CallStat fn] (os_OpenFile fn flag 0 w1)
          end) as Hrun.
  { rewrite openFifo_run. cbv zeta.
    rewrite (keep_flag_without_O_CREAT _ Hclear), Hclear. simpl.
    destruct (sys_Stat fn w) as [[w1 err]|]; [|done]. by rewrite andb_false_r. }
  split; [|split].
  - rewrite Hrun, !openFifo_run. cbv zeta.
    rewrite (keep_flag_without_O_CREAT _ Hclear), Hclear. simpl.
    destruct (sys_Stat fn w) as [[w1 err]|]; [|done]. by rewrite andb_false_r.
  - intros p mode. rewrite Hrun.
    destruct (sys_Stat fn w) as [[w1 err]|]; [destruct (not_nil err)|].
    + by intros [=]%list_elem_of_singleton.
    + unfold after. rewrite os_OpenFile_calls. simpl.
      by intros [[=]|[=]%list_elem_of_singleton]%elem_of_cons.
    + by intros [=]%list_elem_of_singleton.
  - intros name f p. rewrite Hrun.
    destruct (sys_Stat fn w) as [[w1 err]|]; [destruct (not_nil err)|].
    + by intros [=]%list_elem_of_singleton.
    + unfold after. rewrite os_OpenFile_calls. simpl.
      by intros [[=]|[=]%list_elem_of_singleton]%elem_of_cons.
    + by intros [=]%list_elem_of_singleton.
Qed.

(** X3: openFifo sees of the mode its nine permission bits only: two modes
    that agree on them, such as 04600 and 0600, give the same calls and the
    same result. *)
Theorem openFifo_mode_low_bits (ctx : Context) (fn : string) (flag perm perm' : Z) (w : W) :
  Z.land perm os.ModePerm = Z.land perm' os.ModePerm →
  openFifo ctx fn flag perm w = openFifo ctx fn flag perm' w.
Proof. intros Hsame. rewrite !openFifo_run. cbv zeta. by rewrite Hsame. Qed.

(** X4: when the probe finds an entry, neither the creation flag nor the
    mode matters: openFifo with the flag set does what it does without it,
    and makes no creation call. *)
Theorem openFifo_existing_entry (ctx : Context) (fn : string) (flag perm perm' : Z)
    (w w1 : W) :
  sys_Stat fn w = Some (w1, ErrNil) →
  openFifo ctx fn (Z.lor flag syscall.O_CREAT) perm w = openFifo ctx fn flag perm' w
  ∧ openFifo ctx fn flag perm w
    = after [CallStat fn] (os_OpenFile fn (Z.land flag (Z.lnot syscall.O_CREAT)) 0 w1).
Proof.
  intros Hstat. rewrite !openFifo_run. cbv zeta.
  by rewrite Hstat, clear_after_set_O_CREAT.
Qed.

(** X5: when the creation call fails for a reason other than exists,
    openFifo returns its error under the message, makes no open call, and
    the error returned is recognised neither by os.IsNotExist nor by
    os.IsExist nor by IsClosedErr, whatever the error of the creation call
    was. *)
Theorem openFifo_creation_error_opaque (ctx : Context) (fn : string) (flag perm : Z)
    (w w1 w2 : W) (err e2 : error) :
  sys_Stat fn w = Some (w1, err) → os.IsNotExist err = true →
  Z.land flag syscall.O_CREAT ≠ 0 →
  sys_Mkfifo fn (Z.land perm os.ModePerm) w1 = Some (w2, e2) →
  not_nil e2 = true → os.IsExist e2 = false →
  ∃ e, openFifo ctx fn flag perm w
       = Run [CallStat fn; CallMkfifo fn (Z.land perm os.ModePerm)] (Some ((None, e), w2))
    ∧ e = withStack (withMessage e2 ("error creating fifo " +:+ fn))
    ∧ os.IsNotExist e = false ∧ os.IsExist e = false
    ∧ IsClosedErr (Held e) = Returns false.
Proof.
  intros Hstat Hne Hflag Hmk Hnil Hex. eexists. split; [|done].
  rewrite openFifo_run. cbv zeta. rewrite (proj1 (uint32_perm perm)).
  rewrite Hstat, (IsNotExist_not_nil _ Hne), Hne.
  apply Z.eqb_neq in Hflag as ->. simpl.
  by rewrite Hmk, Hnil, Hex, (Wrapf_not_nil _ _ Hnil).
Qed.

End openFifo_more.

(** ** Further properties, on the POSIX directory *)

Section posix_calls.
Import posix.

Lemma stat_returns (name : string) (w : world) : is_Some (stat name w).
Proof. unfold stat. repeat case_match; eauto. Qed.

Lemma mkfifo_returns (path : string) (mode : Z) (w : world) :
  is_Some (posix.mkfifo path mode w).
Proof. unfold posix.mkfifo. repeat case_match; eauto. Qed.

(** One attempt to open waits only for a blocking open of one end. *)
Lemma open_inode_WouldBlock (flag : Z) (i : inode) :
  open_inode flag i = WouldBlock →
  Z.land flag syscall.O_NONBLOCK = 0 ∧ Z.land flag syscall.O_ACCMODE ≠ syscall.O_RDWR.
Proof.
  unfold open_inode.
  destruct (Z.eqb_spec (Z.land flag syscall.O_NONBLOCK) 0) as [Hnb|Hnb];
  destruct (Z.eqb_spec (Z.land flag syscall.O_ACCMODE) syscall.O_WRONLY) as [Hwo|Hwo];
  destruct (Z.eqb_spec (Z.land flag syscall.O_ACCMODE) syscall.O_RDONLY) as [Hro|Hro];
  destruct (Z.eqb_spec (Z.land flag syscall.O_ACCMODE) syscall.O_ACCMODE) as [Hrw|Hrw];
  simpl; repeat case_match; try discriminate; intros _;
    (split; [done|]); first [by rewrite Hwo|by rewrite Hro].
Qed.

Lemma open_wait_returns (name : string) (flag perm : Z) (ps : list peer) (w : world) :
  fst (open_once name flag perm w) ≠ WouldBlock →
  is_Some (open_wait name flag perm ps w).
Proof.
  intros Hnb.
  destruct ps; simpl; destruct (open_once name flag perm w) as [[i|e|] w']; eauto; done.
Qed.

Lemma openFile_returns (name : string) (flag perm : Z) (w : world) :
  Z.land flag syscall.O_CREAT = 0 →
  Z.land flag syscall.O_NONBLOCK ≠ 0 ∨ Z.land flag syscall.O_ACCMODE = syscall.O_RDWR →
  is_Some (openFile name flag perm w).
Proof.
  intros Hc Hnb. unfold openFile. apply open_wait_returns.
  unfold open_once. rewrite Hc. simpl.
  repeat case_match; simpl; try done.
  intros Hb%open_inode_WouldBlock. tauto.
Qed.

Lemma strip_keeps_O_NONBLOCK (flag : Z) :
  Z.land (Z.land flag (Z.lnot syscall.O_CREAT)) syscall.O_NONBLOCK
  = Z.land flag syscall.O_NONBLOCK.
Proof. by rewrite <- Z.land_assoc. Qed.

Lemma strip_keeps_O_ACCMODE (flag : Z) :
  Z.land (Z.land flag (Z.lnot syscall.O_CREAT)) syscall.O_ACCMODE
  = Z.land flag syscall.O_ACCMODE.
Proof. by rewrite <- Z.land_assoc. Qed.

(** The calls in a directory that may be searched and where no peer acts. *)
Lemma stat_quiet (name : string) (w : world) :
  peers w = [] → allows (dir_mode w) S_IXUSR = true →
  stat name w
  = Some (w, match entries w !! name with
             | None => PathError "stat" name (Errno syscall.ENOENT)
             | Some _ => ErrNil
             end).
Proof.
  destruct w as [dm es fd ps]. simpl. intros -> Hx.
  unfold stat, peer_step. simpl. rewrite Hx. simpl. by destruct (es !! name).
Qed.

Lemma openFile_quiet (name : string) (flag perm : Z) (w : world) (i : inode) :
  peers w = [] → allows (dir_mode w) S_IXUSR = true → entries w !! name = Some i →
  openFile name flag perm w
  = match open_inode flag i with
    | Opened i' =>
        Some (mkWorld (dir_mode w) (<[name := i']> (entries w)) (next_fd w + 1) [],
              (Some (mkFile (next_fd w) name), ErrNil))
    | Failed e => Some (w, (None, PathError "open" name (Errno e)))
    | WouldBlock => None
    end.
Proof.
  destruct w as [dm es fd ps]. simpl. intros -> Hx Hsome.
  unfold openFile, peer_step. simpl. unfold open_once. simpl. rewrite Hx, Hsome. simpl.
  by destruct (open_inode flag i).
Qed.

End posix_calls.

Section posix_package.
Import posix.

(** X6: with the non-blocking flag, or with read-write access, openFifo
    always returns in the POSIX directory, whatever is at the path and
    whatever the peers do. *)
Theorem openFifo_nonblocking_returns (ctx : Context) (fn : string) (flag perm : Z) (w : world) :
  Z.land flag syscall.O_NONBLOCK ≠ 0 ∨ Z.land flag syscall.O_ACCMODE = syscall.O_RDWR →
  is_Some (returned (openFifo ctx fn flag perm w)).
Proof.
  intros Hnb. rewrite openFifo_run. cbv zeta.
  assert (∀ w', is_Some (sys_OpenFile fn (Z.land flag (Z.lnot syscall.O_CREAT)) 0 w')) as Hopen.
  { intros w'. apply openFile_returns; [apply clear_O_CREAT|].
    by rewrite strip_keeps_O_NONBLOCK, strip_keeps_O_ACCMODE. }
  destruct (stat_returns fn w) as [[w1 err] Hstat].
  change (sys_Stat fn w) with (stat fn w). rewrite Hstat.
  destruct (not_nil err).
  - destruct (os.IsNotExist err && _); [|by eexists].
    destruct (mkfifo_returns fn (uint32 (Z.land perm os.ModePerm)) w1) as [[w2 e2] Hmk].
    change (sys_Mkfifo fn ?m w1) with (posix.mkfifo fn m w1). rewrite Hmk.
    destruct (not_nil e2 && _); [by eexists|].
    unfold after; simpl. rewrite os_OpenFile_run.
    destruct (Hopen w2) as [[w3 r] ->]. by eexists.
  - unfold after; simpl. rewrite os_OpenFile_run.
    destruct (Hopen w1) as [[w3 r] ->]. by eexists.
Qed.

(** X8: on a FIFO that its owner may write, with no peer acting, Open never
    returns when the FIFO has no reader, and returns a handle on the writing
    end when it has one. *)
Theorem Open_waits_for_reader (path : string) (w : world) (i : inode) :
  peers w = [] → allows (dir_mode w) S_IXUSR = true →
  entries w !! path = Some i → ikind i = Fifo → allows (imode i) S_IWUSR = true →
  (readers i = 0%nat →
     Open path w = Run [CallStat path; CallOpenFile path syscall.O_WRONLY 0] None)
  ∧ (readers i ≠ 0%nat →
     Open path w
     = Run [CallStat path; CallOpenFile path syscall.O_WRONLY 0]
         (Some ((Some (mkFile (next_fd w) path), ErrNil),
                mkWorld (dir_mode w)
                  (<[path := mkInode Fifo (imode i) (readers i) (S (writers i))]> (entries w))
                  (next_fd w + 1) []))).
Proof.
  intros Hq Hx Hsome Hfifo Hwr.
  assert (Open path w = after [CallStat path] (os_OpenFile path syscall.O_WRONLY 0 w)) as ->.
  { rewrite Open_run. change (sys_Stat path w) with (stat path w).
    by rewrite (stat_quiet _ _ Hq Hx), Hsome. }
  unfold after. rewrite os_OpenFile_run.
  change (sys_OpenFile path ?f ?p w) with (openFile path f p w).
  rewrite (openFile_quiet _ _ _ _ _ Hq Hx Hsome).
  unfold open_inode. simpl. rewrite Hwr, Hfifo. simpl.
  split; intros Hr.
  - by rewrite Hr.
  - apply Nat.eqb_neq in Hr as ->. done.
Qed.

(** X9: openFifo for writing with the non-blocking flag, on a FIFO with no
    reader and no peer acting, returns no handle: it returns the ENXIO error
    of the open, and leaves the directory as it was. *)
Theorem openFifo_nonblocking_write_ENXIO (ctx : Context) (path : string) (perm : Z)
    (w : world) (i : inode) :
  peers w = [] → allows (dir_mode w) S_IXUSR = true →
  entries w !! path = Some i → ikind i = Fifo → allows (imode i) S_IWUSR = true →
  readers i = 0%nat →
  openFifo ctx path (Z.lor syscall.O_WRONLY syscall.O_NONBLOCK) perm w
  = Run [CallStat path; CallOpenFile path (Z.lor syscall.O_WRONLY syscall.O_NONBLOCK) 0]
      (Some ((None, PathError "open" path (Errno syscall.ENXIO)), w)).
Proof.
  intros Hq Hx Hsome Hfifo Hwr Hr. rewrite openFifo_run. cbv zeta.
  change (sys_Stat path w) with (stat path w).
  rewrite (stat_quiet _ _ Hq Hx), Hsome. simpl.
  unfold after. rewrite os_OpenFile_run.
  change (sys_OpenFile path ?f ?p w) with (openFile path f p w).
  rewrite (openFile_quiet _ _ _ _ _ Hq Hx Hsome).
  unfold open_inode. simpl. by rewrite Hwr, Hfifo, Hr.
Qed.

End posix_package.

(** ** The further properties on concrete inputs *)

Lemma openFifo_without_O_CREAT_witness :
  Z.land syscall.O_WRONLY syscall.O_CREAT = 0
  ∧ openFifo Background "f" syscall.O_WRONLY 384 posix.empty_dir
    = openFifo Background "f" syscall.O_WRONLY 511 posix.empty_dir
  ∧ (∀ p mode,
       CallMkfifo p mode ∉ calls (openFifo Background "f" syscall.O_WRONLY 384 posix.empty_dir))
  ∧ (∀ name f p,
       CallOpenFile name f p
         ∈ calls (openFifo Background "f" syscall.O_WRONLY 384 posix.empty_dir) →
       f = syscall.O_WRONLY).
Proof.
  split; [reflexivity|].
  apply (openFifo_without_O_CREAT Background "f" syscall.O_WRONLY 384 511 posix.empty_dir).
  reflexivity.
Defined.

Lemma openFifo_mode_low_bits_witness :
  Z.land 2432 os.ModePerm = Z.land 384 os.ModePerm
  ∧ openFifo Background "f" 2112 2432 posix.empty_dir
    = openFifo Background "f" 2112 384 posix.empty_dir.
Proof.
  split; [reflexivity|].
  apply (openFifo_mode_low_bits Background "f" 2112 2432 384 posix.empty_dir).
  reflexivity.
Defined.

Lemma openFifo_existing_entry_witness :
  sys_Stat "f" (posix.dir_with_fifo "f") = Some (posix.dir_with_fifo "f", ErrNil)
  ∧ openFifo Background "f" (Z.lor syscall.O_RDWR syscall.O_CREAT) 384 (posix.dir_with_fifo "f")
    = openFifo Background "f" syscall.O_RDWR 0 (posix.dir_with_fifo "f")
  ∧ openFifo Background "f" syscall.O_RDWR 384 (posix.dir_with_fifo "f")
    = after [CallStat "f"]
        (os_OpenFile "f" (Z.land syscall.O_RDWR (Z.lnot syscall.O_CREAT)) 0
           (posix.dir_with_fifo "f")).
Proof.
  split; [by vm_compute|].
  apply (openFifo_existing_entry Background "f" syscall.O_RDWR 384 0
           (posix.dir_with_fifo "f") (posix.dir_with_fifo "f")).
  by vm_compute.
Defined.

Lemma openFifo_creation_error_opaque_witness :
  sys_Stat "f" posix.readonly_dir
    = Some (posix.readonly_dir, PathError "stat" "f" (Errno syscall.ENOENT))
  ∧ os.IsNotExist (PathError "stat" "f" (Errno syscall.ENOENT)) = true
  ∧ Z.land 2112 syscall.O_CREAT ≠ 0
  ∧ sys_Mkfifo "f" (Z.land 384 os.ModePerm) posix.readonly_dir
    = Some (posix.readonly_dir, Errno syscall.EACCES)
  ∧ not_nil (Errno syscall.EACCES) = true
  ∧ os.IsExist (Errno syscall.EACCES) = false
  ∧ ∃ e, openFifo Background "f" 2112 384 posix.readonly_dir
         = Run [CallStat "f"; CallMkfifo "f" (Z.land 384 os.ModePerm)]
             (Some ((None, e), posix.readonly_dir))
      ∧ e = withStack (withMessage (Errno syscall.EACCES) ("error creating fifo " +:+ "f"))
      ∧ os.IsNotExist e = false ∧ os.IsExist e = false
    ∧ IsClosedErr (Held e) = Returns false.
Proof.
  do 6 (split; [by vm_compute|]).
  apply (openFifo_creation_error_opaque Background "f" 2112 384
           posix.readonly_dir posix.readonly_dir posix.readonly_dir
           (PathError "stat" "f" (Errno syscall.ENOENT)) (Errno syscall.EACCES));
    by vm_compute.
Defined.

Lemma openFifo_nonblocking_returns_witness :
  (Z.land 2112 syscall.O_NONBLOCK ≠ 0 ∨ Z.land 2112 syscall.O_ACCMODE = syscall.O_RDWR)
  ∧ is_Some (returned (openFifo Background "f" 2112 384 (posix.dir_with_racing_peer "f" 128))).
Proof.
  assert (Z.land 2112 syscall.O_NONBLOCK ≠ 0 ∨ Z.land 2112 syscall.O_ACCMODE = syscall.O_RDWR)
    as Hnb by (by left).
  split; [exact Hnb|].
  exact (openFifo_nonblocking_returns Background "f" 2112 384
           (posix.dir_with_racing_peer "f" 128) Hnb).
Defined.

Lemma Open_waits_for_reader_witness :
  (posix.entries (posix.dir_with_fifo "f") !! "f" = Some (posix.mkInode posix.Fifo 384 0 0)
   ∧ Open "f" (posix.dir_with_fifo "f")
     = Run [CallStat "f"; CallOpenFile "f" syscall.O_WRONLY 0] None)
  ∧ (posix.entries (posix.mkWorld 448 {[ "f" := posix.mkInode posix.Fifo 384 1 0 ]} 4 []) !! "f"
       = Some (posix.mkInode posix.Fifo 384 1 0)
     ∧ Open "f" (posix.mkWorld 448 {[ "f" := posix.mkInode posix.Fifo 384 1 0 ]} 4 [])
       = Run [CallStat "f"; CallOpenFile "f" syscall.O_WRONLY 0]
           (Some ((Some (mkFile 4 "f"), ErrNil),
                  posix.mkWorld 448
                    (<["f" := posix.mkInode posix.Fifo 384 1 1]>
                       {[ "f" := posix.mkInode posix.Fifo 384 1 0 ]})
                    (4 + 1) []))).
Proof.
  split.
  - split; [by vm_compute|].
    apply (proj1 (Open_waits_for_reader "f" (posix.dir_with_fifo "f")
                    (posix.mkInode posix.Fifo 384 0 0)
                    eq_refl ltac:(by vm_compute) ltac:(by vm_compute) eq_refl
                    ltac:(by vm_compute))).
    reflexivity.
  - split; [by vm_compute|].
    apply (proj2 (Open_waits_for_reader "f"
                    (posix.mkWorld 448 {[ "f" := posix.mkInode posix.Fifo 384 1 0 ]} 4 [])
                    (posix.mkInode posix.Fifo 384 1 0)
                    eq_refl ltac:(by vm_compute) ltac:(by vm_compute) eq_refl
                    ltac:(by vm_compute))).
    discriminate.
Defined.

Lemma openFifo_nonblocking_write_ENXIO_witness :
  (posix.peers (posix.dir_with_fifo "f") = []
   ∧ posix.allows (posix.dir_mode (posix.dir_with_fifo "f")) posix.S_IXUSR = true
   ∧ posix.entries (posix.dir_with_fifo "f") !! "f" = Some (posix.mkInode posix.Fifo 384 0 0)
   ∧ posix.allows 384 posix.S_IWUSR = true)
  ∧ openFifo Background "f" (Z.lor syscall.O_WRONLY syscall.O_NONBLOCK) 384
      (posix.dir_with_fifo "f")
    = Run [CallStat "f"; CallOpenFile "f" (Z.lor syscall.O_WRONLY syscall.O_NONBLOCK) 0]
        (Some ((None, PathError "open" "f" (Errno syscall.ENXIO)), posix.dir_with_fifo "f")).
Proof.
  split; [by vm_compute|].
  apply (openFifo_nonblocking_write_ENXIO Background "f" 384 (posix.dir_with_fifo "f")
           (posix.mkInode posix.Fifo 384 0 0)); by vm_compute.
Defined.
